(** * face_servo backend: the MQTT to WebSocket bridge of [backend/server.js]

    A shallow embedding of the event handlers of [server.js]: the broker
    message handler (routing by topic, envelope construction, fan-out over
    [wss.clients]), the WebSocket connection handler with its client counter
    and the HTTP health endpoint.  Handlers are functions from the server
    state to a new state and the list of effects they perform, in order;
    JavaScript exceptions are an explicit completion.  The SIGINT handler
    (lines 196-213) ends the process and is left out. *)

From Stdlib Require Import ZArith NArith List String Ascii Bool Lia.
From Stdlib Require Import DecimalString Sorted.
Import ListNotations.

Open Scope string_scope.
Open Scope list_scope.
Open Scope Z_scope.

(** ** Values *)

(** JSON values as [JSON.parse] returns them and [JSON.stringify] takes them.
    Object fields are kept in insertion order.  Numbers are integers: those
    the server writes itself ([Date.now()], a set size, the client counter)
    are, and a parsed payload is passed on without being looked into. *)
#[local] Unset Elimination Schemes.
Inductive json : Type :=
| JNull
| JBool (b : bool)
| JNumber (n : Z)
| JString (s : string)
| JArray (items : list json)
| JObject (fields : list (string * json)).
#[local] Set Elimination Schemes.

(** Property lookup on an object literal (the first binding; the literals of
    [server.js] have no repeated key). *)
Fixpoint field (key : string) (fields : list (string * json)) : option json :=
  match fields with
  | [] => None
  | (k, v) :: rest => if String.eqb k key then Some v else field key rest
  end.

Definition get (key : string) (v : json) : option json :=
  match v with
  | JObject fields => field key fields
  | _ => None
  end.

Definition keys (v : json) : list string :=
  match v with
  | JObject fields => map fst fields
  | _ => []
  end.

(** A Node [Buffer]: the payload bytes the broker delivers. *)
Definition Buffer : Type := list Byte.byte.

(** What a [throw] carries. *)
Inductive error : Type :=
| SyntaxError (text : string)          (* raised by JSON.parse on [text] *)
| SendError (reason : string)          (* raised by a socket's send *)
| SocketError (message : string).      (* emitted by a socket as 'error' *)

(** The builtins the script calls but does not define.  [JSON_parse] returns
    [None] where the builtin throws a SyntaxError. *)
Class Runtime : Type := {
  toString : Buffer -> string;
  JSON_parse : string -> option json;
  JSON_stringify : json -> string
}.

(** ** Sockets and server state *)

(** [ws.readyState]. *)
Inductive ready_state : Type := CONNECTING | OPEN | CLOSING | CLOSED.

Definition ready_state_eqb (a b : ready_state) : bool :=
  match a, b with
  | CONNECTING, CONNECTING | OPEN, OPEN | CLOSING, CLOSING | CLOSED, CLOSED => true
  | _, _ => false
  end.

(** A [ws] object as the script sees it: its identity, its [readyState] and
    how its transport answers a [send] ([Some reason]: the call throws). *)
Record socket : Type := {
  sock : N;
  readyState : ready_state;
  sendError : option string
}.

(** [client.readyState === WebSocket.OPEN] (line 164). *)
Definition is_open (ws : socket) : bool := ready_state_eqb (readyState ws) OPEN.

(** The closure the connection handler builds around one socket
    (lines 91-92): the listeners of lines 105-122 capture [clientId]. *)
Record connection : Type := {
  conn_sock : N;
  clientId : Z;
  clientIp : string
}.

(** The module-level state: [mqttClient.connected], [wss.clients] (a Set,
    iterated in insertion order), [clientCount] and the listeners attached
    so far. *)
Record server : Type := {
  connected : bool;
  wss_clients : list socket;
  clientCount : Z;
  listeners : list connection
}.

(** An HTTP request as the health handler reads it, and what it answers
    ([res.writeHead], [res.end]). *)
Record request : Type := {
  method : string;
  url : string
}.

Record response : Type := {
  statusCode : Z;
  headers : list (string * string);
  body : string
}.

(** ** Effects *)

(** The lines written with [console.log] and [console.error]. *)
Inductive console : Type :=
| LogMqttConnected                                        (* line 32 *)
| LogSubscribed (topic : string)                          (* lines 37, 43, 49 *)
| LogMqttOffline                                          (* line 59 *)
| LogClientConnected (id : Z) (ip : string)               (* line 94 *)
| LogTotalClients (size : nat)                            (* lines 95, 117 *)
| LogClientMessage (id : Z) (data : json)                 (* line 108 *)
| ErrClientParse (e : error)                              (* line 111 *)
| LogClientDisconnected (id : Z)                          (* line 116 *)
| ErrClient (id : Z) (message : string)                   (* line 121 *)
| LogBroadcast (messageType : string) (sentCount : nat)   (* line 171 *)
| ErrProcessingTopic (topic : string)                     (* line 175 *)
| ErrMessageContent (msgString : string)                  (* line 176 *)
| ErrProcessing (e : error)                               (* line 177 *)
| ErrUncaught (e : error).                                (* line 217 *)

Inductive event : Type :=
| Console (line : console)
| Stringify (v : json)                 (* one call of JSON.stringify *)
| Sent (s : N) (data : string)         (* send(data) accepted by socket s *)
| SendFailed (s : N) (data : string)   (* send(data) on socket s threw *)
| Subscribe (topic : string)           (* mqttClient.subscribe *)
| Respond (r : response).              (* res.writeHead and res.end *)

(** How a block of statements ends. *)
Inductive completion (A : Type) : Type :=
| Normal (a : A)
| Throw (e : error).
Arguments Normal {A} a.
Arguments Throw {A} e.

(** A computation: the effects performed, then its completion. *)
Definition js (A : Type) : Type := list event * completion A.

Definition ret {A} (a : A) : js A := ([], Normal a).

Definition bind {A B} (m : js A) (k : A -> js B) : js B :=
  match m with
  | (t, Normal a) => let (t', r) := k a in (t ++ t', r)
  | (t, Throw e) => (t, Throw e)
  end.

Definition throw {A} (e : error) : js A := ([], Throw e).

Definition emit (ev : event) : js unit := ([ev], Normal tt).

(** [try { body } catch (error) { handler }]. *)
Definition try_catch {A} (body : js A) (handler : error -> js A) : js A :=
  match body with
  | (t, Throw e) => let (t', r) := handler e in (t ++ t', r)
  | (t, Normal a) => (t, Normal a)
  end.

Notation "x <- m ;; k" := (bind m (fun x => k))
  (at level 61, m at next level, right associativity).
Notation "m ;;; k" := (bind m (fun _ => k))
  (at level 61, right associativity).

Definition console_log (c : console) : js unit := emit (Console c).
Definition console_error (c : console) : js unit := emit (Console c).

Definition trace {A} (m : js A) : list event := fst m.
Definition outcome {A} (m : js A) : completion A := snd m.

(** ** Configuration (lines 12-19) *)

Definition TEAM_ID : string := "BACK-BENCHERS".
Definition TOPIC_MOVEMENT : string := ("vision/" ++ TEAM_ID ++ "/movement")%string.
Definition TOPIC_HEARTBEAT : string := ("vision/" ++ TEAM_ID ++ "/heartbeat")%string.
Definition TOPIC_STATUS : string := "iot/status/#".

Section Handlers.
Context {R : Runtime}.

(** [JSON.parse(text)], throwing where the builtin does. *)
Definition parse (text : string) : js json :=
  match JSON_parse text with
  | Some v => ret v
  | None => throw (SyntaxError text)
  end.

(** [JSON.stringify(v)]: every call is recorded. *)
Definition stringify (v : json) : js string :=
  emit (Stringify v) ;;; ret (JSON_stringify v).

(** [client.send(data)]. *)
Definition send (client : socket) (data : string) : js unit :=
  match sendError client with
  | Some reason => emit (SendFailed (sock client) data) ;;; throw (SendError reason)
  | None => emit (Sent (sock client) data)
  end.

(** ** MQTT to WebSocket bridge (lines 126-179) *)

(** Lines 134-153: route by topic; yields [messageType] and [payload]. *)
Definition route_by_topic (topic msgString : string) : js (string * json) :=
  if String.eqb topic TOPIC_MOVEMENT then
    payload <- parse msgString ;;
    ret ("movement", payload)
  else if String.eqb topic TOPIC_HEARTBEAT then
    payload <- parse msgString ;;
    ret ("heartbeat", payload)
  else if String.prefix "iot/status/" topic then
    ret ("device_status", JObject [("status", JString msgString)])
  else
    ret ("unknown", JObject [("raw", JString msgString)]).

(** Lines 155-160: the envelope; [now] is the value of [Date.now()]. *)
Definition wsMessage (now : Z) (messageType topic : string) (payload : json) : json :=
  JObject [("type", JString messageType);
           ("topic", JString topic);
           ("data", payload);
           ("received_at", JNumber now)].

(** Lines 134-160 together: the envelope built for one broker message. *)
Definition envelope (now : Z) (topic msgString : string) : js json :=
  r <- route_by_topic topic msgString ;;
  ret (wsMessage now (fst r) topic (snd r)).

(** Lines 163-168: [wss.clients.forEach], threading [sentCount]. *)
Fixpoint forEach_client (message : json) (clients : list socket) (sentCount : nat)
  : js nat :=
  match clients with
  | [] => ret sentCount
  | client :: rest =>
      if is_open client then
        data <- stringify message ;;
        send client data ;;;
        forEach_client message rest (S sentCount)
      else
        forEach_client message rest sentCount
  end.

(** Lines 162-172: the fan-out and its log line. *)
Definition broadcast (messageType : string) (message : json) (clients : list socket)
  : js unit :=
  sentCount <- forEach_client message clients 0%nat ;;
  if (0 <? sentCount)%nat then console_log (LogBroadcast messageType sentCount)
  else ret tt.

(** The ['message'] handler of [mqttClient], lines 126-179. *)
Definition on_mqtt_message (now : Z) (st : server) (topic : string) (message : Buffer)
  : js unit :=
  let msgString := toString message in
  try_catch
    (r <- route_by_topic topic msgString ;;
     let messageType := fst r in
     let payload := snd r in
     broadcast messageType (wsMessage now messageType topic payload) (wss_clients st))
    (fun error =>
       console_error (ErrProcessingTopic topic) ;;;
       console_error (ErrMessageContent msgString) ;;;
       console_error (ErrProcessing error)).

(** ** MQTT client (lines 31-60) *)

(** The ['connect'] handler: three subscriptions; each callback logs when
    the broker granted it ([granted topic], i.e. no [err]). *)
Definition subscribed (granted : string -> bool) (topic : string) : js unit :=
  if granted topic then console_log (LogSubscribed topic) else ret tt.

Definition on_mqtt_connect (granted : string -> bool) : js unit :=
  console_log LogMqttConnected ;;;
  emit (Subscribe TOPIC_MOVEMENT) ;;;
  emit (Subscribe TOPIC_HEARTBEAT) ;;;
  emit (Subscribe TOPIC_STATUS) ;;;
  subscribed granted TOPIC_MOVEMENT ;;;
  subscribed granted TOPIC_HEARTBEAT ;;;
  subscribed granted TOPIC_STATUS.

Definition on_mqtt_offline : js unit := console_log LogMqttOffline.

(** ** Health endpoint (lines 67-81) *)

(** The object literal of lines 71-76. *)
Definition health (now : Z) (st : server) : json :=
  JObject [("status", JString "healthy");
           ("mqtt", JBool (connected st));
           ("ws_clients", JNumber (Z.of_nat (List.length (wss_clients st))));
           ("timestamp", JNumber now)].

Definition on_request (now : Z) (st : server) (req : request) : js response :=
  if String.eqb (url req) "/health" then
    data <- stringify (health now st) ;;
    ret {| statusCode := 200;
           headers := [("Content-Type", "application/json")];
           body := data |}
  else
    ret {| statusCode := 404; headers := []; body := "Not Found" |}.

(** ** WebSocket connections (lines 88-123) *)

(** [++clientCount] on a JavaScript Number.  The counter holds an integer in
    a double: adding 1 is exact below 2^53, and 2^53 + 1 rounds back to 2^53
    (ties to even), so the counter stays at 2^53 once it gets there. *)
Definition increment (n : Z) : Z :=
  if n <? 2 ^ 53 then n + 1 else n.

(** The welcome object of lines 98-103. *)
Definition welcome (now : Z) : json :=
  JObject [("type", JString "welcome");
           ("message", JString "Connected to Face Tracking Backend");
           ("team_id", JString TEAM_ID);
           ("timestamp", JNumber now)].

(** Lines 94-103, for the socket [ws] already counted as [id]. *)
Definition greet (now : Z) (st : server) (ws : socket) (id : Z) (ip : string)
  : js unit :=
  console_log (LogClientConnected id ip) ;;;
  console_log (LogTotalClients (List.length (wss_clients st))) ;;;
  data <- stringify (welcome now) ;;
  send ws data.

(** The ['connection'] handler.  The listeners of lines 105-122 are attached
    only when the welcome send returned. *)
Definition on_connection (now : Z) (st : server) (ws : socket) (remoteAddress : string)
  : server * js unit :=
  let id := increment (clientCount st) in
  let m := greet now st ws id remoteAddress in
  let attached :=
    match outcome m with
    | Normal _ =>
        listeners st ++ [{| conn_sock := sock ws; clientId := id; clientIp := remoteAddress |}]
    | Throw _ => listeners st
    end in
  ({| connected := connected st;
      wss_clients := wss_clients st;
      clientCount := id;
      listeners := attached |}, m).

(** Lines 105-113. *)
Definition on_client_message (c : connection) (message : Buffer) : js unit :=
  try_catch
    (data <- parse (toString message) ;;
     console_log (LogClientMessage (clientId c) data))
    (fun error => console_error (ErrClientParse error)).

(** Lines 115-118. *)
Definition on_client_close (st : server) (c : connection) : js unit :=
  console_log (LogClientDisconnected (clientId c)) ;;;
  console_log (LogTotalClients (List.length (wss_clients st))).

(** Lines 120-122. *)
Definition on_client_error (c : connection) (message : string) : js unit :=
  console_error (ErrClient (clientId c) message).

(** ** The event loop *)

(** What the libraries and the outside world deliver to the script. *)
Inductive input : Type :=
| MqttConnect (granted : string -> bool)
| MqttOffline
| MqttMessage (topic : string) (message : Buffer)
| WsConnection (ws : socket) (remoteAddress : string)
| WsState (s : N) (rs : ready_state) (err : option string)
| WsMessage (s : N) (message : Buffer)
| WsClose (s : N)
| WsError (s : N) (message : string)
| HttpRequest (req : request).

Definition is_socket (s : N) (ws : socket) : bool := N.eqb (sock ws) s.
Definition listens (s : N) (c : connection) : bool := N.eqb (conn_sock c) s.

(** [wss.clients.add(ws)] and [wss.clients.delete(ws)], done by the [ws]
    library before ['connection'] and before the script's ['close']
    listener. *)
Definition clients_add (ws : socket) (clients : list socket) : list socket :=
  if existsb (is_socket (sock ws)) clients then clients else clients ++ [ws].

Definition clients_delete (s : N) (clients : list socket) : list socket :=
  filter (fun ws => negb (is_socket s ws)) clients.

(** A transport change on socket [s], seen through its fields. *)
Definition clients_update (s : N) (rs : ready_state) (err : option string)
  (clients : list socket) : list socket :=
  map (fun ws => if is_socket s ws
                 then {| sock := s; readyState := rs; sendError := err |}
                 else ws) clients.

Definition with_connected (b : bool) (st : server) : server :=
  {| connected := b; wss_clients := wss_clients st;
     clientCount := clientCount st; listeners := listeners st |}.

Definition with_clients (clients : list socket) (st : server) : server :=
  {| connected := connected st; wss_clients := clients;
     clientCount := clientCount st; listeners := listeners st |}.

Definition with_listeners (l : list connection) (st : server) : server :=
  {| connected := connected st; wss_clients := wss_clients st;
     clientCount := clientCount st; listeners := l |}.

(** Lines 216-218: an exception that leaves a handler is logged by the
    ['uncaughtException'] listener and the process goes on. *)
Definition uncaught (m : js unit) : list event :=
  match m with
  | (t, Normal _) => t
  | (t, Throw e) => t ++ [Console (ErrUncaught e)]
  end.

(** Run the listener of socket [s], if one is attached. *)
Definition dispatch (st : server) (s : N) (h : connection -> js unit) : list event :=
  match find (listens s) (listeners st) with
  | Some c => uncaught (h c)
  | None => []
  end.

(** An ['error'] event of socket [s].  With the listener of line 120
    attached it is logged there; with none, the emitter throws the error
    itself, which nothing catches. *)
Definition dispatch_error (st : server) (s : N) (message : string) : list event :=
  match find (listens s) (listeners st) with
  | Some c => uncaught (on_client_error c message)
  | None => uncaught (throw (SocketError message))
  end.

(** One turn of the event loop at time [now]. *)
Definition step (now : Z) (st : server) (i : input) : server * list event :=
  match i with
  | MqttConnect granted =>
      (with_connected true st, uncaught (on_mqtt_connect granted))
  | MqttOffline =>
      (with_connected false st, uncaught on_mqtt_offline)
  | MqttMessage topic message =>
      (st, uncaught (on_mqtt_message now st topic message))
  | WsConnection ws remoteAddress =>
      let st1 := with_clients (clients_add ws (wss_clients st)) st in
      let (st2, m) := on_connection now st1 ws remoteAddress in
      (st2, uncaught m)
  | WsState s rs err =>
      (with_clients (clients_update s rs err (wss_clients st)) st, [])
  | WsMessage s message =>
      (st, dispatch st s (fun c => on_client_message c message))
  | WsClose s =>
      let st1 := with_clients (clients_delete s (wss_clients st)) st in
      (with_listeners (filter (fun c => negb (listens s c)) (listeners st1)) st1,
       dispatch st1 s (on_client_close st1))
  | WsError s message =>
      (st, dispatch_error st s message)
  | HttpRequest req =>
      let m := on_request now st req in
      (st, uncaught (r <- m ;; emit (Respond r)))
  end.

(** The script from an arbitrary state, over timed inputs. *)
Fixpoint run (st : server) (inputs : list (Z * input)) : server * list event :=
  match inputs with
  | [] => (st, [])
  | (now, i) :: rest =>
      let (st1, t1) := step now st i in
      let (st2, t2) := run st1 rest in
      (st2, t1 ++ t2)
  end.

End Handlers.

(** The state when the script has just been loaded (lines 25, 83, 88). *)
Definition initial : server :=
  {| connected := false; wss_clients := []; clientCount := 0; listeners := [] |}.

(** ** Reading a trace *)

(** The sockets on which [send] was called, in order. *)
Fixpoint attempted (t : list event) : list N :=
  match t with
  | [] => []
  | Sent s _ :: rest => s :: attempted rest
  | SendFailed s _ :: rest => s :: attempted rest
  | _ :: rest => attempted rest
  end.

(** The sends that went through: socket and text. *)
Fixpoint delivered (t : list event) : list (N * string) :=
  match t with
  | [] => []
  | Sent s data :: rest => (s, data) :: delivered rest
  | _ :: rest => delivered rest
  end.

(** The arguments of the calls of [JSON.stringify]. *)
Fixpoint serializations (t : list event) : list json :=
  match t with
  | [] => []
  | Stringify v :: rest => v :: serializations rest
  | _ :: rest => serializations rest
  end.

(** The client ids handed out, read off line 94. *)
Fixpoint assigned (t : list event) : list Z :=
  match t with
  | [] => []
  | Console (LogClientConnected id _) :: rest => id :: assigned rest
  | _ :: rest => assigned rest
  end.

(** How many inputs are client accepts. *)
Fixpoint accepts (inputs : list (Z * input)) : nat :=
  match inputs with
  | [] => 0%nat
  | (_, WsConnection _ _) :: rest => S (accepts rest)
  | _ :: rest => accepts rest
  end.

(** The sockets of a list up to and including the first whose [send]
    throws. *)
Fixpoint through_first_failure (clients : list socket) : list socket :=
  match clients with
  | [] => []
  | c :: rest =>
      match sendError c with
      | Some _ => [c]
      | None => c :: through_first_failure rest
      end
  end.

Definition healthy (ws : socket) : bool :=
  match sendError ws with
  | Some _ => false
  | None => true
  end.

(** What one healthy open recipient adds to the trace of a fan-out. *)
Definition delivery {R : Runtime} (message : json) (client : socket) : list event :=
  [Stringify message; Sent (sock client) (JSON_stringify message)].

(** The three [console.error] lines of the handler's [catch] block. *)
Definition processing_errors (topic msgString : string) (e : error) : list event :=
  [Console (ErrProcessingTopic topic);
   Console (ErrMessageContent msgString);
   Console (ErrProcessing e)].

(** The health body as the specification words it: keys [mqttConnected] and
    [wsClients], the latter counting the connections in state Open. *)
Definition health_documented (now : Z) (st : server) : json :=
  JObject [("status", JString "healthy");
           ("mqttConnected", JBool (connected st));
           ("wsClients", JNumber (Z.of_nat (List.length (filter is_open (wss_clients st)))));
           ("timestamp", JNumber now)].

(** The console lines of a trace, in order. *)
Fixpoint console_lines (t : list event) : list console :=
  match t with
  | [] => []
  | Console line :: rest => line :: console_lines rest
  | _ :: rest => console_lines rest
  end.

(** The topics passed to [mqttClient.subscribe], in order. *)
Fixpoint subscriptions (t : list event) : list string :=
  match t with
  | [] => []
  | Subscribe topic :: rest => topic :: subscriptions rest
  | _ :: rest => subscriptions rest
  end.

(** The sockets of a list that come before the first whose [send] throws. *)
Fixpoint before_first_failure (clients : list socket) : list socket :=
  match clients with
  | [] => []
  | c :: rest =>
      match sendError c with
      | Some _ => []
      | None => c :: before_first_failure rest
      end
  end.

(** The four values of [messageType] (lines 135, 139, 143, 151). *)
Definition message_types : list string :=
  ["movement"; "heartbeat"; "device_status"; "unknown"].

(** The three subscriptions of lines 35-51. *)
Definition subscribed_topics : list string :=
  [TOPIC_MOVEMENT; TOPIC_HEARTBEAT; TOPIC_STATUS].

(** The counter is within the range where [increment] is exact or stuck,
    and every attached listener carries an id that was handed out. *)
Definition ids_in_range (st : server) : Prop :=
  0 <= clientCount st <= 2 ^ 53 /\
  Forall (fun c => 1 <= clientId c <= clientCount st) (listeners st).

(** ** A runtime for running the handlers on examples

    It reads the literals [null], [true], [false] and unsigned decimal
    integers, rejects every other text, and writes values without escaping
    the characters of strings. *)
Module Example.

Definition digit (c : ascii) : option Z :=
  let n := Z.of_N (N_of_ascii c) in
  if (48 <=? n) && (n <=? 57) then Some (n - 48) else None.

Fixpoint digits (acc : Z) (s : string) : option Z :=
  match s with
  | EmptyString => Some acc
  | String c rest =>
      match digit c with
      | Some d => digits (10 * acc + d) rest
      | None => None
      end
  end.

Definition literal (s : string) : option json :=
  if String.eqb s "null" then Some JNull
  else if String.eqb s "true" then Some (JBool true)
  else if String.eqb s "false" then Some (JBool false)
  else if String.eqb s "0" then Some (JNumber 0)
  else match s with
       | EmptyString => None
       | String "0" _ => None
       | _ => option_map JNumber (digits 0 s)
       end.

Definition quote : string := String (ascii_of_nat 34) EmptyString.

Definition decimal (n : Z) : string := NilZero.string_of_int (Z.to_int n).

Fixpoint serialize (v : json) : string :=
  (match v with
   | JNull => "null"
   | JBool true => "true"
   | JBool false => "false"
   | JNumber n => decimal n
   | JString s => quote ++ s ++ quote
   | JArray items =>
       "[" ++ (fix go (l : list json) : string :=
                 match l with
                 | [] => ""
                 | x :: r => serialize x ++ match r with [] => "" | _ => "," ++ go r end
                 end) items ++ "]"
   | JObject fields =>
       "{" ++ (fix go (l : list (string * json)) : string :=
                 match l with
                 | [] => ""
                 | (k, x) :: r =>
                     quote ++ k ++ quote ++ ":" ++ serialize x
                     ++ match r with [] => "" | _ => "," ++ go r end
                 end) fields ++ "}"
   end)%string.

Definition runtime : Runtime :=
  {| toString := string_of_list_byte;
     JSON_parse := literal;
     JSON_stringify := serialize |}.

Definition bytes (s : string) : Buffer := list_byte_of_string s.

(** Sockets and states used in the examples below. *)
Definition peer (s : N) (rs : ready_state) (err : option string) : socket :=
  {| sock := s; readyState := rs; sendError := err |}.

Definition serving (up : bool) (clients : list socket) : server :=
  {| connected := up; wss_clients := clients; clientCount := 0; listeners := [] |}.

(** One client connecting and going away again. *)
Definition visit {R : Runtime} (st : server) : server :=
  fst (run st [(0, WsConnection (peer 1 OPEN None) "::1"); (0, WsClose 1)]).

(** Payloads, peers and requests of the examples. *)
Definition movement_bytes : Buffer := bytes "42".
Definition status_bytes : Buffer := bytes "OK".
Definition broken_bytes : Buffer := bytes "not-json".

Definition alice : socket := peer 1 OPEN None.
Definition bob : socket := peer 2 OPEN None.
Definition carol : socket := peer 3 CLOSING None.
Definition mallory : socket := peer 4 OPEN (Some "EPIPE").

Definition get_health : request := {| method := "GET"; url := "/health" |}.
Definition get_index : request := {| method := "GET"; url := "/" |}.

(** Two accepts with a broadcast and a close in between. *)
Definition two_visits : list (Z * input) :=
  [(0, WsConnection alice "::1");
   (1, MqttMessage "iot/status/sensor7" status_bytes);
   (2, WsClose 1);
   (3, WsConnection bob "::1")].

End Example.


(** * Properties *)

Section Properties.
Context {R : Runtime}.

(** ** Traces *)

Lemma attempted_app (t u : list event) :
  attempted (t ++ u) = attempted t ++ attempted u.
Proof.
  induction t as [|[] t IH]; simpl; rewrite ?IH; reflexivity.
Qed.

Lemma delivered_app (t u : list event) :
  delivered (t ++ u) = delivered t ++ delivered u.
Proof.
  induction t as [|[] t IH]; simpl; rewrite ?IH; reflexivity.
Qed.

Lemma serializations_app (t u : list event) :
  serializations (t ++ u) = serializations t ++ serializations u.
Proof.
  induction t as [|[] t IH]; simpl; rewrite ?IH; reflexivity.
Qed.

Lemma assigned_app (t u : list event) :
  assigned (t ++ u) = assigned t ++ assigned u.
Proof.
  induction t as [|[[]| | | | |] t IH]; simpl; rewrite ?IH; reflexivity.
Qed.

Lemma is_open_OPEN (c : socket) : is_open c = true -> readyState c = OPEN.
Proof. unfold is_open. destruct (readyState c); simpl; congruence. Qed.

(** ** Routing *)

Lemma status_prefix_not_movement (topic : string) :
  String.prefix "iot/status/" topic = true -> String.eqb topic TOPIC_MOVEMENT = false.
Proof.
  intros H. destruct (String.eqb_spec topic TOPIC_MOVEMENT) as [->|]; [|reflexivity].
  vm_compute in H. discriminate.
Qed.

Lemma status_prefix_not_heartbeat (topic : string) :
  String.prefix "iot/status/" topic = true -> String.eqb topic TOPIC_HEARTBEAT = false.
Proof.
  intros H. destruct (String.eqb_spec topic TOPIC_HEARTBEAT) as [->|]; [|reflexivity].
  vm_compute in H. discriminate.
Qed.

Lemma route_movement (msgString : string) (v : json) :
  JSON_parse msgString = Some v ->
  route_by_topic TOPIC_MOVEMENT msgString = ([], Normal ("movement", v)).
Proof.
  intros H. unfold route_by_topic, parse. rewrite String.eqb_refl, H. reflexivity.
Qed.

Lemma route_heartbeat (msgString : string) (v : json) :
  JSON_parse msgString = Some v ->
  route_by_topic TOPIC_HEARTBEAT msgString = ([], Normal ("heartbeat", v)).
Proof.
  intros H. unfold route_by_topic, parse.
  replace (String.eqb TOPIC_HEARTBEAT TOPIC_MOVEMENT) with false by reflexivity.
  rewrite String.eqb_refl, H. reflexivity.
Qed.

Lemma route_malformed (topic msgString : string) :
  topic = TOPIC_MOVEMENT \/ topic = TOPIC_HEARTBEAT ->
  JSON_parse msgString = None ->
  route_by_topic topic msgString = ([], Throw (SyntaxError msgString)).
Proof.
  intros [-> | ->] H; unfold route_by_topic, parse.
  - rewrite String.eqb_refl, H. reflexivity.
  - replace (String.eqb TOPIC_HEARTBEAT TOPIC_MOVEMENT) with false by reflexivity.
    rewrite String.eqb_refl, H. reflexivity.
Qed.

Lemma route_status (topic msgString : string) :
  String.prefix "iot/status/" topic = true ->
  route_by_topic topic msgString =
  ([], Normal ("device_status", JObject [("status", JString msgString)])).
Proof.
  intros H. unfold route_by_topic.
  rewrite (status_prefix_not_movement _ H), (status_prefix_not_heartbeat _ H), H.
  reflexivity.
Qed.

Lemma route_other (topic msgString : string) :
  topic <> TOPIC_MOVEMENT -> topic <> TOPIC_HEARTBEAT ->
  String.prefix "iot/status/" topic = false ->
  route_by_topic topic msgString =
  ([], Normal ("unknown", JObject [("raw", JString msgString)])).
Proof.
  intros Hm Hh Hp. unfold route_by_topic.
  apply String.eqb_neq in Hm, Hh. rewrite Hm, Hh, Hp. reflexivity.
Qed.

(** ** Fan-out *)

(** Every text that reaches a socket is the serialization of the one
    message, and the socket is an open member of the iterated set. *)
Lemma forEach_delivered (message : json) (clients : list socket) :
  forall (n : nat) (s : N) (data : string),
    In (s, data) (delivered (trace (forEach_client message clients n))) ->
    data = JSON_stringify message /\
    exists c, In c clients /\ sock c = s /\ readyState c = OPEN.
Proof.
  induction clients as [|c rest IH]; intros n s data Hin; simpl in Hin.
  - contradiction.
  - destruct (is_open c) eqn:Ho.
    + unfold stringify, send in Hin. simpl in Hin.
      destruct (sendError c) as [reason|] eqn:He; simpl in Hin.
      * contradiction.
      * destruct (forEach_client message rest (S n)) as [t r] eqn:Hrec.
        simpl in Hin. destruct Hin as [Heq | Hin].
        -- inversion Heq; subst. split; [reflexivity|].
           exists c. auto using is_open_OPEN with datatypes.
        -- specialize (IH (S n) s data). rewrite Hrec in IH.
           destruct (IH Hin) as [Hd [c' [Hc' Hs]]].
           split; [exact Hd|]. exists c'. auto with datatypes.
    + destruct (IH n s data Hin) as [Hd [c' [Hc' Hs]]].
      split; [exact Hd|]. exists c'. auto with datatypes.
Qed.

(** The fan-out over sockets none of which refuses a send. *)
Lemma forEach_healthy (message : json) (clients : list socket) :
  forall n : nat,
    (forall c, In c clients -> is_open c = true -> sendError c = None) ->
    forEach_client message clients n =
    (List.concat (map (delivery message) (filter is_open clients)),
     Normal (n + List.length (filter is_open clients))%nat).
Proof.
  induction clients as [|c rest IH]; intros n H; simpl.
  - unfold ret. rewrite Nat.add_0_r. reflexivity.
  - destruct (is_open c) eqn:Ho.
    + unfold stringify, send. rewrite (H c (or_introl eq_refl) Ho). simpl.
      rewrite (IH (S n)) by (intros; apply H; auto with datatypes).
      simpl. rewrite Nat.add_succ_r. reflexivity.
    + apply IH. intros; apply H; auto with datatypes.
Qed.

(** The fan-out stops at the first open socket whose send throws. *)
Lemma forEach_failing (message : json) (before after : list socket)
  (failing : socket) (reason : string) :
  forall n : nat,
    (forall c, In c before -> is_open c = true -> sendError c = None) ->
    is_open failing = true ->
    sendError failing = Some reason ->
    forEach_client message (before ++ failing :: after) n =
    (List.concat (map (delivery message) (filter is_open before))
     ++ [Stringify message; SendFailed (sock failing) (JSON_stringify message)],
     Throw (SendError reason)).
Proof.
  induction before as [|c rest IH]; intros n H Ho He; simpl.
  - rewrite Ho. unfold stringify, send. rewrite He. reflexivity.
  - destruct (is_open c) eqn:Hc.
    + unfold stringify, send. rewrite (H c (or_introl eq_refl) Hc). simpl.
      rewrite (IH (S n)) by (auto; intros; apply H; auto with datatypes).
      reflexivity.
    + apply IH; auto. intros; apply H; auto with datatypes.
Qed.

(** The sockets on which [send] is called. *)
Lemma forEach_attempted (message : json) (clients : list socket) :
  forall n : nat,
    attempted (trace (forEach_client message clients n)) =
    map sock (through_first_failure (filter is_open clients)).
Proof.
  induction clients as [|c rest IH]; intros n; simpl.
  - reflexivity.
  - destruct (is_open c) eqn:Ho; [|apply IH].
    unfold stringify, send. simpl.
    destruct (sendError c) as [reason|] eqn:He; simpl.
    + reflexivity.
    + specialize (IH (S n)).
      destruct (forEach_client message rest (S n)) as [t r]. simpl in *.
      rewrite IH. reflexivity.
Qed.

Lemma through_first_failure_healthy (clients : list socket) :
  forallb healthy clients = true -> through_first_failure clients = clients.
Proof.
  induction clients as [|c rest IH]; simpl; [reflexivity|].
  unfold healthy at 1. destruct (sendError c); simpl; [discriminate|].
  intros H. rewrite IH by exact H. reflexivity.
Qed.

Lemma through_first_failure_prefix (clients : list socket) :
  exists rest, clients = through_first_failure clients ++ rest.
Proof.
  induction clients as [|c l [rest IH]]; simpl.
  - exists []. reflexivity.
  - destruct (sendError c).
    + exists l. reflexivity.
    + exists rest. simpl. rewrite <- IH. reflexivity.
Qed.

(** ** The broker message handler *)

Lemma on_mqtt_message_routed (now : Z) (st : server) (topic : string)
  (message : Buffer) (ty : string) (payload : json) :
  route_by_topic topic (toString message) = ([], Normal (ty, payload)) ->
  on_mqtt_message now st topic message =
  try_catch
    (broadcast ty (wsMessage now ty topic payload) (wss_clients st))
    (fun e => (processing_errors topic (toString message) e, Normal tt)).
Proof.
  intros H. unfold on_mqtt_message. rewrite H. simpl.
  destruct (broadcast ty (wsMessage now ty topic payload) (wss_clients st)) as [t [[]|e]];
    reflexivity.
Qed.

(** No exception leaves the handler. *)
Lemma on_mqtt_message_returns (now : Z) (st : server) (topic : string)
  (message : Buffer) :
  outcome (on_mqtt_message now st topic message) = Normal tt.
Proof.
  unfold on_mqtt_message, try_catch.
  match goal with |- context [match ?b with _ => _ end] => destruct b as [t [[]|e]] end;
    reflexivity.
Qed.

Lemma broadcast_delivered (ty : string) (message : json) (clients : list socket)
  (s : N) (data : string) :
  In (s, data) (delivered (trace (broadcast ty message clients))) ->
  data = JSON_stringify message /\
  exists c, In c clients /\ sock c = s /\ readyState c = OPEN.
Proof.
  unfold broadcast. intros Hin.
  pose proof (forEach_delivered message clients 0%nat s data) as H.
  destruct (forEach_client message clients 0%nat) as [t [k|e]]; simpl in *.
  - destruct (0 <? k)%nat; simpl in Hin;
      rewrite delivered_app in Hin; simpl in Hin; rewrite app_nil_r in Hin; auto.
  - auto.
Qed.

Lemma on_mqtt_message_delivered (now : Z) (st : server) (topic : string)
  (message : Buffer) (ty : string) (payload : json) (s : N) (data : string) :
  route_by_topic topic (toString message) = ([], Normal (ty, payload)) ->
  In (s, data) (delivered (trace (on_mqtt_message now st topic message))) ->
  data = JSON_stringify (wsMessage now ty topic payload) /\
  exists c, In c (wss_clients st) /\ sock c = s /\ readyState c = OPEN.
Proof.
  intros Hr Hin. rewrite (on_mqtt_message_routed _ _ _ _ _ _ Hr) in Hin.
  apply (broadcast_delivered ty).
  destruct (broadcast ty (wsMessage now ty topic payload) (wss_clients st)) as [t [[]|e]];
    simpl in *; [exact Hin|].
  rewrite delivered_app in Hin. simpl in Hin. rewrite app_nil_r in Hin. exact Hin.
Qed.

(** ** Classification *)

(** C1. A broker message on the movement topic, or on the heartbeat topic,
    whose payload [JSON.parse] accepts yields one envelope: its [type] is
    ["movement"] (resp. ["heartbeat"]), its [data] is the parsed payload, and
    whatever a client is sent for that message is the serialization of that
    envelope. *)
Theorem movement_heartbeat_envelope (now : Z) (st : server) (message : Buffer)
  (v : json) :
  JSON_parse (toString message) = Some v ->
  (envelope now TOPIC_MOVEMENT (toString message) =
     ([], Normal (JObject [("type", JString "movement");
                           ("topic", JString TOPIC_MOVEMENT);
                           ("data", v);
                           ("received_at", JNumber now)]))
   /\ forall s data,
        In (s, data) (delivered (trace (on_mqtt_message now st TOPIC_MOVEMENT message))) ->
        data = JSON_stringify (wsMessage now "movement" TOPIC_MOVEMENT v))
  /\
  (envelope now TOPIC_HEARTBEAT (toString message) =
     ([], Normal (JObject [("type", JString "heartbeat");
                           ("topic", JString TOPIC_HEARTBEAT);
                           ("data", v);
                           ("received_at", JNumber now)]))
   /\ forall s data,
        In (s, data) (delivered (trace (on_mqtt_message now st TOPIC_HEARTBEAT message))) ->
        data = JSON_stringify (wsMessage now "heartbeat" TOPIC_HEARTBEAT v)).
Proof.
  intros Hv.
  pose proof (route_movement _ _ Hv) as Hm.
  pose proof (route_heartbeat _ _ Hv) as Hh.
  repeat split.
  - unfold envelope. rewrite Hm. reflexivity.
  - intros s data Hin.
    exact (proj1 (on_mqtt_message_delivered _ _ _ _ _ _ _ _ Hm Hin)).
  - unfold envelope. rewrite Hh. reflexivity.
  - intros s data Hin.
    exact (proj1 (on_mqtt_message_delivered _ _ _ _ _ _ _ _ Hh Hin)).
Qed.

(** C2. A broker message on the movement or heartbeat topic whose payload
    [JSON.parse] rejects is dropped: the handler writes its three error
    lines, serializes nothing, sends nothing to any client and returns
    normally; the inputs that follow are processed from the unchanged
    state. *)
Theorem malformed_payload_dropped (now : Z) (st : server) (topic : string)
  (message : Buffer) (rest : list (Z * input)) :
  topic = TOPIC_MOVEMENT \/ topic = TOPIC_HEARTBEAT ->
  JSON_parse (toString message) = None ->
  on_mqtt_message now st topic message =
    (processing_errors topic (toString message) (SyntaxError (toString message)),
     Normal tt)
  /\ attempted (trace (on_mqtt_message now st topic message)) = []
  /\ serializations (trace (on_mqtt_message now st topic message)) = []
  /\ run st ((now, MqttMessage topic message) :: rest) =
       (fst (run st rest),
        processing_errors topic (toString message) (SyntaxError (toString message))
        ++ snd (run st rest)).
Proof.
  intros Ht Hp.
  assert (H : on_mqtt_message now st topic message =
              (processing_errors topic (toString message)
                 (SyntaxError (toString message)), Normal tt)).
  { unfold on_mqtt_message. rewrite (route_malformed _ _ Ht Hp). reflexivity. }
  split; [exact H|]. split; [rewrite H; reflexivity|].
  split; [rewrite H; reflexivity|].
  cbn [run step]. rewrite H. cbn [uncaught].
  destruct (run st rest) as [st2 t2]. reflexivity.
Qed.

(** C6. A broker message whose topic starts with [iot/status/] yields an
    envelope of [type] ["device_status"] whose [data] is [{status: text}],
    [text] being the payload text as it came, whatever [JSON.parse] would
    make of it; that envelope is what clients are sent. *)
Theorem status_envelope (now : Z) (st : server) (topic : string) (message : Buffer) :
  String.prefix "iot/status/" topic = true ->
  envelope now topic (toString message) =
    ([], Normal (JObject [("type", JString "device_status");
                          ("topic", JString topic);
                          ("data", JObject [("status", JString (toString message))]);
                          ("received_at", JNumber now)]))
  /\ forall s data,
       In (s, data) (delivered (trace (on_mqtt_message now st topic message))) ->
       data = JSON_stringify
                (wsMessage now "device_status" topic
                   (JObject [("status", JString (toString message))])).
Proof.
  intros Hp. pose proof (route_status topic (toString message) Hp) as Hr. split.
  - unfold envelope. rewrite Hr. reflexivity.
  - intros s data Hin.
    exact (proj1 (on_mqtt_message_delivered _ _ _ _ _ _ _ _ Hr Hin)).
Qed.

(** C7. A broker message whose topic is neither the movement topic nor the
    heartbeat topic and does not start with [iot/status/] yields an envelope
    of [type] ["unknown"] whose [data] is [{raw: text}], [text] being the
    payload text; that envelope is what clients are sent. *)
Theorem unknown_envelope (now : Z) (st : server) (topic : string) (message : Buffer) :
  topic <> TOPIC_MOVEMENT ->
  topic <> TOPIC_HEARTBEAT ->
  String.prefix "iot/status/" topic = false ->
  envelope now topic (toString message) =
    ([], Normal (JObject [("type", JString "unknown");
                          ("topic", JString topic);
                          ("data", JObject [("raw", JString (toString message))]);
                          ("received_at", JNumber now)]))
  /\ forall s data,
       In (s, data) (delivered (trace (on_mqtt_message now st topic message))) ->
       data = JSON_stringify
                (wsMessage now "unknown" topic
                   (JObject [("raw", JString (toString message))])).
Proof.
  intros Hm Hh Hp. pose proof (route_other topic (toString message) Hm Hh Hp) as Hr.
  split.
  - unfold envelope. rewrite Hr. reflexivity.
  - intros s data Hin.
    exact (proj1 (on_mqtt_message_delivered _ _ _ _ _ _ _ _ Hr Hin)).
Qed.

(** ** Broadcast *)

Lemma broadcast_attempted (ty : string) (message : json) (clients : list socket) :
  attempted (trace (broadcast ty message clients)) =
  map sock (through_first_failure (filter is_open clients)).
Proof.
  rewrite <- (forEach_attempted message clients 0%nat). unfold broadcast.
  destruct (forEach_client message clients 0%nat) as [t [k|e]]; simpl; [|reflexivity].
  destruct (0 <? k)%nat; simpl; rewrite attempted_app, app_nil_r; reflexivity.
Qed.

Lemma forEach_serializations (message : json) (clients : list socket) :
  forall n : nat,
    serializations (trace (forEach_client message clients n)) =
    repeat message (List.length (through_first_failure (filter is_open clients))).
Proof.
  induction clients as [|c rest IH]; intros n; simpl.
  - reflexivity.
  - destruct (is_open c) eqn:Ho; [|apply IH].
    unfold stringify, send. simpl.
    destruct (sendError c) as [reason|] eqn:He; simpl.
    + reflexivity.
    + specialize (IH (S n)).
      destruct (forEach_client message rest (S n)) as [t r]. simpl in *.
      rewrite IH. reflexivity.
Qed.

Lemma broadcast_serializations (ty : string) (message : json) (clients : list socket) :
  serializations (trace (broadcast ty message clients)) =
  repeat message (List.length (through_first_failure (filter is_open clients))).
Proof.
  rewrite <- (forEach_serializations message clients 0%nat). unfold broadcast.
  destruct (forEach_client message clients 0%nat) as [t [k|e]]; simpl; [|reflexivity].
  destruct (0 <? k)%nat; simpl; rewrite serializations_app, app_nil_r; reflexivity.
Qed.

Lemma healthy_forallb (clients : list socket) :
  forallb healthy (filter is_open clients) = true ->
  forall c, In c clients -> is_open c = true -> sendError c = None.
Proof.
  intros H c Hin Ho. rewrite forallb_forall in H.
  assert (Hc : healthy c = true) by (apply H, filter_In; auto).
  unfold healthy in Hc. destruct (sendError c); [discriminate|reflexivity].
Qed.

Lemma console_lines_app (t u : list event) :
  console_lines (t ++ u) = console_lines t ++ console_lines u.
Proof.
  induction t as [|[] t IH]; simpl; rewrite ?IH; reflexivity.
Qed.

(** The loop writes no console line; when it completes, [sentCount] has
    grown by the number of sends that went through, and no send failed. *)
Lemma forEach_accounting (message : json) (clients : list socket) :
  forall n : nat,
    console_lines (trace (forEach_client message clients n)) = []
    /\ match outcome (forEach_client message clients n) with
       | Normal k =>
           k = (n + List.length (delivered (trace (forEach_client message clients n))))%nat
           /\ attempted (trace (forEach_client message clients n)) =
              map fst (delivered (trace (forEach_client message clients n)))
       | Throw _ => True
       end.
Proof.
  induction clients as [|c rest IH]; intros n; simpl.
  - split; [reflexivity|]. split; [lia|reflexivity].
  - destruct (is_open c); [|apply IH].
    unfold stringify, send. simpl.
    destruct (sendError c); simpl; [split; [reflexivity|exact I]|].
    specialize (IH (S n)).
    destruct (forEach_client message rest (S n)) as [t [k|e]]; simpl in *.
    + destruct IH as [Hc [Hk Ha]]. split; [exact Hc|]. split; [lia|].
      rewrite Ha. reflexivity.
    + exact IH.
Qed.

(** The loop ends with an exception as soon as one open member refuses
    its send. *)
Lemma forEach_unhealthy (message : json) (clients : list socket) :
  forall n : nat,
    forallb healthy (filter is_open clients) = false ->
    exists e, outcome (forEach_client message clients n) = Throw e.
Proof.
  induction clients as [|c rest IH]; intros n H; simpl in *; [discriminate|].
  destruct (is_open c); [|apply IH; exact H].
  simpl in H. unfold stringify, send. unfold healthy at 1 in H.
  destruct (sendError c) as [reason|]; simpl in *.
  - exists (SendError reason). reflexivity.
  - destruct (IH (S n) H) as [e He].
    destruct (forEach_client message rest (S n)) as [t r]. simpl in *.
    exists e. exact He.
Qed.

(** The console line of a broadcast: the count, when every send returned
    and at least one was made; nothing otherwise. *)
Lemma broadcast_console (ty : string) (message : json) (clients : list socket) :
  console_lines (trace (broadcast ty message clients)) =
  if forallb healthy (filter is_open clients)
     && (0 <? List.length (filter is_open clients))%nat
  then [LogBroadcast ty (List.length (filter is_open clients))]
  else [].
Proof.
  pose proof (proj1 (forEach_accounting message clients 0%nat)) as Hl.
  unfold broadcast.
  destruct (forallb healthy (filter is_open clients)) eqn:Hh; cbn [andb].
  - rewrite (forEach_healthy message clients 0%nat (healthy_forallb _ Hh)) in *.
    simpl in *.
    destruct (0 <? List.length (filter is_open clients))%nat; simpl;
      rewrite console_lines_app, Hl; reflexivity.
  - destruct (forEach_unhealthy message clients 0%nat Hh) as [e He].
    destruct (forEach_client message clients 0%nat) as [t [k|e']]; simpl in *.
    + discriminate.
    + exact Hl.
Qed.

(** C3, as the handler has it.  When the send to an open client throws
    during a broadcast, the iteration ends there: the open clients before it
    in [wss.clients] have each been sent the envelope, the clients after it
    are not sent anything, the exception is caught by the handler's one
    [try]/[catch], which writes its three error lines for the message, and
    the handler returns normally. *)
Theorem send_failure_ends_broadcast (now : Z) (st : server) (topic : string)
  (message : Buffer) (ty : string) (payload : json)
  (before after : list socket) (failing : socket) (reason : string) :
  route_by_topic topic (toString message) = ([], Normal (ty, payload)) ->
  wss_clients st = before ++ failing :: after ->
  (forall c, In c before -> is_open c = true -> sendError c = None) ->
  is_open failing = true ->
  sendError failing = Some reason ->
  on_mqtt_message now st topic message =
    (List.concat (map (delivery (wsMessage now ty topic payload)) (filter is_open before))
     ++ [Stringify (wsMessage now ty topic payload);
         SendFailed (sock failing) (JSON_stringify (wsMessage now ty topic payload))]
     ++ processing_errors topic (toString message) (SendError reason),
     Normal tt).
Proof.
  intros Hr Hc Hb Ho He.
  rewrite (on_mqtt_message_routed _ _ _ _ _ _ Hr). unfold broadcast.
  rewrite Hc, (forEach_failing _ _ _ _ _ _ Hb Ho He). simpl.
  rewrite <- app_assoc. reflexivity.
Qed.

(** C5, as the loop has it.  In a broadcast, [send] is called on the open
    members of [wss.clients], in iteration order, up to and including the
    first one whose send throws.  So every connection on which [send] is
    called is in state OPEN at that moment, and when no send throws they are
    exactly the connections in state OPEN. *)
Theorem sends_only_to_open (ty : string) (message : json) (clients : list socket) :
  attempted (trace (broadcast ty message clients)) =
    map sock (through_first_failure (filter is_open clients))
  /\ (forall s, In s (attempted (trace (broadcast ty message clients))) ->
        exists c, In c clients /\ sock c = s /\ readyState c = OPEN)
  /\ (forallb healthy (filter is_open clients) = true ->
        attempted (trace (broadcast ty message clients)) =
        map sock (filter is_open clients)).
Proof.
  split; [apply broadcast_attempted|]. split.
  - intros s Hin. rewrite broadcast_attempted in Hin.
    apply in_map_iff in Hin. destruct Hin as [c [Hs Hin]].
    destruct (through_first_failure_prefix (filter is_open clients)) as [rest Hp].
    assert (Hf : In c (filter is_open clients))
      by (rewrite Hp; apply in_or_app; left; exact Hin).
    apply filter_In in Hf. destruct Hf as [Hc Ho].
    exists c. auto using is_open_OPEN.
  - intros H. rewrite broadcast_attempted, through_first_failure_healthy by exact H.
    reflexivity.
Qed.

(** C8, as the loop has it.  [JSON.stringify] is called inside the
    iteration, once for every client on which [send] is called, just before
    that send; every text sent is the serialization of the one envelope.
    The number of sends is logged, in one line, when every send of the
    broadcast returned and that number is positive; nothing is logged when
    it is zero or when a send threw.  When no send throws, the trace is, for
    each open client in turn, one serialization and one send, then the log
    line if any; when one throws, it ends with the serialization and the
    failed send for that client and the exception leaves the loop.  The
    broadcast returns no value. *)
Theorem serialization_per_recipient (ty : string) (message : json)
  (clients : list socket) :
  serializations (trace (broadcast ty message clients)) =
    repeat message (List.length (attempted (trace (broadcast ty message clients))))
  /\ (forall s data, In (s, data) (delivered (trace (broadcast ty message clients))) ->
        data = JSON_stringify message)
  /\ console_lines (trace (broadcast ty message clients)) =
       (if forallb healthy (filter is_open clients)
           && (0 <? List.length (filter is_open clients))%nat
        then [LogBroadcast ty (List.length (filter is_open clients))]
        else [])
  /\ (forallb healthy (filter is_open clients) = true ->
      broadcast ty message clients =
        (List.concat (map (delivery message) (filter is_open clients))
         ++ (if (0 <? List.length (filter is_open clients))%nat
             then [Console (LogBroadcast ty (List.length (filter is_open clients)))]
             else []),
         Normal tt))
  /\ (forall before failing after reason,
        clients = before ++ failing :: after ->
        (forall c, In c before -> is_open c = true -> sendError c = None) ->
        is_open failing = true ->
        sendError failing = Some reason ->
        broadcast ty message clients =
          (List.concat (map (delivery message) (filter is_open before))
           ++ [Stringify message; SendFailed (sock failing) (JSON_stringify message)],
           Throw (SendError reason))).
Proof.
  split; [|split; [|split; [|split]]].
  - rewrite broadcast_serializations, broadcast_attempted, length_map. reflexivity.
  - intros s data Hin. exact (proj1 (broadcast_delivered _ _ _ _ _ Hin)).
  - apply broadcast_console.
  - intros H. unfold broadcast.
    rewrite (forEach_healthy message clients 0%nat (healthy_forallb _ H)). simpl.
    destruct (0 <? List.length (filter is_open clients))%nat; reflexivity.
  - intros before failing after reason Hc Hb Ho He. unfold broadcast.
    rewrite Hc, (forEach_failing _ _ _ _ _ _ Hb Ho He). reflexivity.
Qed.

(** ** Health endpoint *)

(** C4, as the handler has it.  A request whose URL is [/health], whatever
    its method, is answered with status 200, content type application/json
    and the serialization of [{status: "healthy", mqtt: <mqttClient.connected>,
    ws_clients: <size of wss.clients>, timestamp: <Date.now()>}]; a request
    with any other URL is answered with status 404 and the text
    ["Not Found"]. *)
Theorem health_endpoint (now : Z) (st : server) (req : request) :
  (url req = "/health" ->
   outcome (on_request now st req) =
     Normal {| statusCode := 200;
               headers := [("Content-Type", "application/json")];
               body := JSON_stringify
                         (JObject [("status", JString "healthy");
                                   ("mqtt", JBool (connected st));
                                   ("ws_clients",
                                    JNumber (Z.of_nat (List.length (wss_clients st))));
                                   ("timestamp", JNumber now)]) |})
  /\ (url req <> "/health" ->
      outcome (on_request now st req) =
        Normal {| statusCode := 404; headers := []; body := "Not Found" |}).
Proof.
  unfold on_request. split; intros H.
  - rewrite H. reflexivity.
  - apply String.eqb_neq in H. rewrite H. reflexivity.
Qed.

(** C10. The [ws_clients] figure of the health body is the size of
    [wss.clients], whatever the state of its members; a broadcast sends only
    to members in state OPEN; and there is a state in which the figure is
    larger than the number of clients a broadcast reaches. *)
Theorem health_count_exceeds_recipients :
  (forall now st,
     get "ws_clients" (health now st) =
     Some (JNumber (Z.of_nat (List.length (wss_clients st)))))
  /\ (forall ty message clients s data,
        In (s, data) (delivered (trace (broadcast ty message clients))) ->
        exists c, In c clients /\ sock c = s /\ readyState c = OPEN)
  /\ (exists st, forall now ty message,
        exists n, get "ws_clients" (health now st) = Some (JNumber n) /\
                  Z.of_nat (List.length
                              (delivered (trace (broadcast ty message (wss_clients st))))) < n).
Proof.
  split; [reflexivity|]. split.
  - intros ty message clients s data Hin.
    exact (proj2 (broadcast_delivered _ _ _ _ _ Hin)).
  - exists (Example.serving true [Example.peer 1 OPEN None; Example.peer 2 CLOSING None]).
    intros now ty message. exists 2. split; [reflexivity|]. simpl. lia.
Qed.

(** ** Client ids *)

Lemma increment_below (n : Z) : n < 2 ^ 53 -> increment n = n + 1.
Proof.
  intros H. unfold increment. destruct (Z.ltb_spec n (2 ^ 53)); [reflexivity|lia].
Qed.

Lemma increment_min (n : Z) :
  n <= 2 ^ 53 -> increment n = Z.min (n + 1) (2 ^ 53).
Proof.
  intros H. unfold increment. destruct (Z.ltb_spec n (2 ^ 53)); lia.
Qed.

Lemma forEach_assigned (message : json) (clients : list socket) :
  forall n : nat, assigned (trace (forEach_client message clients n)) = [].
Proof.
  induction clients as [|c rest IH]; intros n; simpl; [reflexivity|].
  destruct (is_open c); [|apply IH].
  unfold stringify, send. simpl.
  destruct (sendError c); simpl; [reflexivity|].
  specialize (IH (S n)). destruct (forEach_client message rest (S n)) as [t r].
  simpl in *. exact IH.
Qed.

Lemma on_mqtt_message_assigned (now : Z) (st : server) (topic : string)
  (message : Buffer) :
  assigned (uncaught (on_mqtt_message now st topic message)) = [].
Proof.
  unfold on_mqtt_message.
  destruct (route_by_topic topic (toString message)) as [t [[ty payload]|e]] eqn:Hr.
  - assert (Ht : t = []).
    { unfold route_by_topic, parse in Hr.
      repeat match type of Hr with
             | context [if ?b then _ else _] => destruct b
             | context [match ?o with Some _ => _ | None => _ end] => destruct o
             end; inversion Hr; reflexivity. }
    subst t. simpl. unfold broadcast.
    pose proof (forEach_assigned (wsMessage now ty topic payload) (wss_clients st) 0%nat) as H.
    destruct (forEach_client _ (wss_clients st) 0%nat) as [u [k|e]]; simpl in *.
    + destruct (0 <? k)%nat; simpl; rewrite assigned_app, H; reflexivity.
    + rewrite assigned_app, H. reflexivity.
  - assert (Ht : t = []).
    { unfold route_by_topic, parse in Hr.
      repeat match type of Hr with
             | context [if ?b then _ else _] => destruct b
             | context [match ?o with Some _ => _ | None => _ end] => destruct o
             end; inversion Hr; reflexivity. }
    subst t. reflexivity.
Qed.

Lemma dispatch_assigned (st : server) (s : N) (h : connection -> js unit) :
  (forall c, assigned (uncaught (h c)) = []) -> assigned (dispatch st s h) = [].
Proof.
  intros H. unfold dispatch. destruct (find (listens s) (listeners st)); auto.
Qed.

Lemma on_client_message_assigned (c : connection) (message : Buffer) :
  assigned (uncaught (on_client_message c message)) = [].
Proof.
  unfold on_client_message, parse. destruct (JSON_parse (toString message)); reflexivity.
Qed.

(** What one turn of the event loop does to the counter and which id it
    hands out: only an accept touches [clientCount]. *)
Lemma step_clientCount (now : Z) (st : server) (i : input) :
  clientCount (fst (step now st i)) =
    match i with
    | WsConnection _ _ => increment (clientCount st)
    | _ => clientCount st
    end
  /\ assigned (snd (step now st i)) =
    match i with
    | WsConnection _ _ => [increment (clientCount st)]
    | _ => []
    end.
Proof.
  destruct i; cbn [step fst snd]; try (split; reflexivity).
  - split; [reflexivity|]. unfold on_mqtt_connect, subscribed.
    destruct (granted TOPIC_MOVEMENT), (granted TOPIC_HEARTBEAT), (granted TOPIC_STATUS);
      reflexivity.
  - split; [reflexivity|]. apply on_mqtt_message_assigned.
  - split; [reflexivity|]. unfold on_connection, greet, stringify, send.
    destruct (sendError ws); reflexivity.
  - split; [reflexivity|]. apply dispatch_assigned. intros c.
    apply on_client_message_assigned.
  - split; [reflexivity|]. apply dispatch_assigned. reflexivity.
  - split; [reflexivity|]. unfold dispatch_error.
    destruct (find (listens s) (listeners st)); reflexivity.
  - split; [reflexivity|]. unfold on_request, stringify.
    destruct (String.eqb (url req) "/health"); reflexivity.
Qed.

Lemma run_cons (st : server) (now : Z) (i : input) (rest : list (Z * input)) :
  run st ((now, i) :: rest) =
  (fst (run (fst (step now st i)) rest),
   snd (step now st i) ++ snd (run (fst (step now st i)) rest)).
Proof.
  cbn [run]. destruct (step now st i) as [st1 t1]. cbn [fst snd].
  destruct (run st1 rest) as [st2 t2]. reflexivity.
Qed.

(** Below the limit of the counter, a run hands out consecutive ids. *)
Lemma run_assigned (inputs : list (Z * input)) :
  forall st : server,
    clientCount st + Z.of_nat (accepts inputs) <= 2 ^ 53 ->
    assigned (snd (run st inputs)) =
      map (fun k => clientCount st + Z.of_nat k) (seq 1 (accepts inputs))
    /\ clientCount (fst (run st inputs)) = clientCount st + Z.of_nat (accepts inputs).
Proof.
  induction inputs as [|[now i] rest IH]; intros st H.
  - simpl. split; [reflexivity|lia].
  - rewrite run_cons. cbn [fst snd]. rewrite assigned_app.
    destruct (step_clientCount now st i) as [Hc Ha]. rewrite Ha.
    destruct i; cbn [accepts] in *;
      try (match goal with
           | |- context [run ?s rest] =>
               destruct (IH s) as [IH1 IH2]; [rewrite Hc; exact H|];
               rewrite IH1, IH2, Hc; split; reflexivity
           end).
    rewrite increment_below in Hc by lia.
    rewrite increment_below by lia.
    destruct (IH (fst (step now st (WsConnection ws remoteAddress)))) as [IH1 IH2];
      [rewrite Hc; lia|].
    rewrite IH1, IH2, Hc. split; [|lia].
    cbn [seq map app]. f_equal.
    rewrite <- (seq_shift (accepts rest) 1), map_map. apply map_ext. intros k. lia.
Qed.

Lemma consecutive_sorted (n : nat) :
  forall start : nat, StronglySorted Z.lt (map Z.of_nat (seq start n)).
Proof.
  induction n as [|n IH]; intros start; simpl; constructor.
  - apply IH.
  - apply Forall_forall. intros x Hx. apply in_map_iff in Hx.
    destruct Hx as [k [<- Hk]]. apply in_seq in Hk. lia.
Qed.

Lemma sorted_NoDup (l : list Z) : StronglySorted Z.lt l -> NoDup l.
Proof.
  induction 1 as [|a l Hs IH Hf]; constructor; [|exact IH].
  intros Hin. rewrite Forall_forall in Hf. specialize (Hf a Hin). lia.
Qed.

(** C9, within the range of the counter.  From the start of the process,
    over any inputs with at most 2^53 client accepts, the ids handed out are
    1, 2, 3, ... in accept order, whatever closes, errors and messages come
    in between: they increase strictly and none is handed out twice. *)
Theorem client_ids_increase (inputs : list (Z * input)) :
  Z.of_nat (accepts inputs) <= 2 ^ 53 ->
  assigned (snd (run initial inputs)) = map Z.of_nat (seq 1 (accepts inputs))
  /\ StronglySorted Z.lt (assigned (snd (run initial inputs)))
  /\ NoDup (assigned (snd (run initial inputs))).
Proof.
  intros H. destruct (run_assigned inputs initial) as [Ha _]; [simpl; lia|].
  assert (He : assigned (snd (run initial inputs)) =
               map Z.of_nat (seq 1 (accepts inputs))).
  { rewrite Ha. apply map_ext. intros k. simpl. lia. }
  rewrite He. split; [reflexivity|].
  split; [|apply sorted_NoDup]; apply consecutive_sorted.
Qed.

(** The counter after [n] visits: it stops at 2^53. *)
Lemma visits_clientCount (n : N) (st : server) :
  clientCount st <= 2 ^ 53 ->
  clientCount (N.iter n Example.visit st) = Z.min (clientCount st + Z.of_N n) (2 ^ 53).
Proof.
  intros H. induction n as [|n IH] using N.peano_ind.
  - simpl. lia.
  - rewrite N.iter_succ. unfold Example.visit at 1.
    rewrite !run_cons. cbn [run fst snd].
    rewrite (proj1 (step_clientCount _ _ (WsClose 1))).
    rewrite (proj1 (step_clientCount _ _ (WsConnection _ _))).
    rewrite IH, increment_min by lia. lia.
Qed.

(** Two accepts in a row, with a close in between, from any state. *)
Lemma two_accepts_assigned (st : server) (a b : socket) (ip : string) (t0 t1 t2 : Z) :
  assigned (snd (run st [(t0, WsConnection a ip); (t1, WsClose (sock a));
                         (t2, WsConnection b ip)])) =
  [increment (clientCount st); increment (increment (clientCount st))].
Proof.
  rewrite !run_cons. cbn [run fst snd]. rewrite !assigned_app.
  rewrite (proj2 (step_clientCount t0 st (WsConnection a ip))).
  rewrite (proj2 (step_clientCount t1 _ (WsClose (sock a)))).
  rewrite (proj2 (step_clientCount t2 _ (WsConnection b ip))).
  rewrite (proj1 (step_clientCount t1 _ (WsClose (sock a)))).
  rewrite (proj1 (step_clientCount t0 st (WsConnection a ip))).
  reflexivity.
Qed.

End Properties.

(** * The properties at concrete inputs *)

Module Instances.
Import Example.

(** A movement message with payload [42] and one open client. *)
Lemma movement_heartbeat_envelope_witness :
  @JSON_parse runtime (@toString runtime movement_bytes) = Some (JNumber 42)
  /\ envelope (R := runtime) 7 TOPIC_MOVEMENT "42" =
       ([], Normal (JObject [("type", JString "movement");
                             ("topic", JString "vision/BACK-BENCHERS/movement");
                             ("data", JNumber 42);
                             ("received_at", JNumber 7)])).
Proof.
  split; [reflexivity|].
  exact (proj1 (proj1 (movement_heartbeat_envelope (R := runtime) 7
                         (serving true [alice]) movement_bytes (JNumber 42) eq_refl))).
Defined.

(** A movement message with payload [not-json], then a status message. *)
Lemma malformed_payload_dropped_witness :
  @JSON_parse runtime (@toString runtime broken_bytes) = None
  /\ on_mqtt_message (R := runtime) 7 (serving true [alice]) TOPIC_MOVEMENT broken_bytes =
       (processing_errors TOPIC_MOVEMENT "not-json" (SyntaxError "not-json"), Normal tt).
Proof.
  split; [reflexivity|].
  exact (proj1 (malformed_payload_dropped (R := runtime) 7 (serving true [alice])
                  TOPIC_MOVEMENT broken_bytes
                  [(8, MqttMessage "iot/status/sensor7" status_bytes)]
                  (or_introl eq_refl) eq_refl)).
Defined.

(** The status message of sensor7 with payload [OK]. *)
Lemma status_envelope_witness :
  String.prefix "iot/status/" "iot/status/sensor7" = true
  /\ envelope (R := runtime) 7 "iot/status/sensor7" "OK" =
       ([], Normal (JObject [("type", JString "device_status");
                             ("topic", JString "iot/status/sensor7");
                             ("data", JObject [("status", JString "OK")]);
                             ("received_at", JNumber 7)])).
Proof.
  split; [reflexivity|].
  exact (proj1 (status_envelope (R := runtime) 7 (serving true [alice])
                  "iot/status/sensor7" status_bytes eq_refl)).
Defined.

Lemma lobby_not_movement : "lobby/chat" <> TOPIC_MOVEMENT.
Proof. apply String.eqb_neq. reflexivity. Defined.

Lemma lobby_not_heartbeat : "lobby/chat" <> TOPIC_HEARTBEAT.
Proof. apply String.eqb_neq. reflexivity. Defined.

(** A message on a topic of no known family. *)
Lemma unknown_envelope_witness :
  String.prefix "iot/status/" "lobby/chat" = false
  /\ envelope (R := runtime) 7 "lobby/chat" "OK" =
       ([], Normal (JObject [("type", JString "unknown");
                             ("topic", JString "lobby/chat");
                             ("data", JObject [("raw", JString "OK")]);
                             ("received_at", JNumber 7)])).
Proof.
  split; [reflexivity|].
  exact (proj1 (unknown_envelope (R := runtime) 7 (serving true [alice])
                  "lobby/chat" status_bytes
                  lobby_not_movement lobby_not_heartbeat eq_refl)).
Defined.

Lemma alice_alone_healthy (c : socket) :
  In c [alice] -> is_open c = true -> sendError c = None.
Proof. intros [<-|[]] _. reflexivity. Defined.

(** Alice, then Mallory whose send throws, then Bob. *)
Lemma send_failure_ends_broadcast_witness :
  is_open mallory = true /\ sendError mallory = Some "EPIPE"
  /\ attempted (trace (on_mqtt_message (R := runtime) 7
                         (serving true [alice; mallory; bob])
                         "iot/status/sensor7" status_bytes)) = [1; 4]%N
  /\ outcome (on_mqtt_message (R := runtime) 7
                (serving true [alice; mallory; bob])
                "iot/status/sensor7" status_bytes) = Normal tt.
Proof.
  split; [reflexivity|]. split; [reflexivity|].
  rewrite (send_failure_ends_broadcast (R := runtime) 7
             (serving true [alice; mallory; bob]) "iot/status/sensor7" status_bytes
             "device_status" (JObject [("status", JString "OK")])
             [alice] [bob] mallory "EPIPE"
             eq_refl eq_refl alice_alone_healthy eq_refl eq_refl).
  split; reflexivity.
Defined.

(** Alice and Bob open, Carol closing, no send throwing. *)
Lemma sends_only_to_open_witness :
  forallb healthy (filter is_open [alice; carol; bob]) = true
  /\ attempted (trace (broadcast (R := runtime) "movement" (JNumber 42)
                         [alice; carol; bob])) = [1; 2]%N.
Proof.
  split; [reflexivity|].
  exact (proj2 (proj2 (sends_only_to_open (R := runtime) "movement" (JNumber 42)
                         [alice; carol; bob])) eq_refl).
Defined.

Lemma serialization_per_recipient_witness :
  forallb healthy (filter is_open [alice; carol; bob]) = true
  /\ broadcast (R := runtime) "movement" (JNumber 42) [alice; carol; bob] =
       ([Stringify (JNumber 42); Sent 1 "42"; Stringify (JNumber 42); Sent 2 "42";
         Console (LogBroadcast "movement" 2)],
        Normal tt).
Proof.
  split; [reflexivity|].
  exact (proj1 (proj2 (proj2 (proj2 (serialization_per_recipient (R := runtime)
                                       "movement" (JNumber 42) [alice; carol; bob]))))
           eq_refl).
Defined.

Lemma index_not_health : url get_index <> "/health".
Proof. apply String.eqb_neq. reflexivity. Defined.

(** [GET /health] and [GET /] with the broker down and three clients. *)
Lemma health_endpoint_witness :
  url get_health = "/health" /\ url get_index <> "/health"
  /\ outcome (on_request (R := runtime) 9 (serving false [alice; bob; carol]) get_health) =
       Normal {| statusCode := 200;
                 headers := [("Content-Type", "application/json")];
                 body := serialize (JObject [("status", JString "healthy");
                                             ("mqtt", JBool false);
                                             ("ws_clients", JNumber 3);
                                             ("timestamp", JNumber 9)]) |}
  /\ outcome (on_request (R := runtime) 9 (serving false [alice; bob; carol]) get_index) =
       Normal {| statusCode := 404; headers := []; body := "Not Found" |}.
Proof.
  split; [reflexivity|]. split; [exact index_not_health|]. split.
  - exact (proj1 (health_endpoint (R := runtime) 9 (serving false [alice; bob; carol])
                    get_health) eq_refl).
  - exact (proj2 (health_endpoint (R := runtime) 9 (serving false [alice; bob; carol])
                    get_index) index_not_health).
Defined.

(** The ids of the two accepts of [two_visits]. *)
Lemma client_ids_increase_witness :
  Z.of_nat (accepts two_visits) <= 2 ^ 53
  /\ assigned (snd (run (R := runtime) initial two_visits)) = [1; 2].
Proof.
  assert (H : Z.of_nat (accepts two_visits) <= 2 ^ 53) by (vm_compute; discriminate).
  split; [exact H|].
  exact (proj1 (client_ids_increase (R := runtime) two_visits H)).
Defined.

(** ** Where the specification and the script part *)

(** C3.  Mallory's send throws before Bob's turn: Bob, open and healthy, is
    sent nothing in that broadcast, and the only error lines are the
    handler's, for the message as a whole. *)
Lemma healthy_client_misses_broadcast :
  In bob (wss_clients (serving true [mallory; bob]))
  /\ is_open bob = true /\ sendError bob = None
  /\ on_mqtt_message (R := runtime) 7 (serving true [mallory; bob])
       "iot/status/sensor7" status_bytes =
     ([Stringify (wsMessage 7 "device_status" "iot/status/sensor7"
                    (JObject [("status", JString "OK")]));
       SendFailed 4 (serialize (wsMessage 7 "device_status" "iot/status/sensor7"
                                  (JObject [("status", JString "OK")])));
       Console (ErrProcessingTopic "iot/status/sensor7");
       Console (ErrMessageContent "OK");
       Console (ErrProcessing (SendError "EPIPE"))],
      Normal tt)
  /\ delivered (trace (on_mqtt_message (R := runtime) 7 (serving true [mallory; bob])
                         "iot/status/sensor7" status_bytes)) = [].
Proof.
  split; [right; left; reflexivity|]. repeat split; reflexivity.
Qed.

(** C5.  With Mallory between Alice and Bob, the sockets on which [send] is
    called are not the open ones: Bob is open and left out. *)
Lemma open_client_not_attempted :
  map sock (filter is_open [alice; mallory; bob]) = [1; 4; 2]%N
  /\ attempted (trace (broadcast (R := runtime) "movement" (JNumber 42)
                         [alice; mallory; bob])) = [1; 4]%N
  /\ attempted (trace (broadcast (R := runtime) "movement" (JNumber 42)
                         [alice; mallory; bob]))
     <> map sock (filter is_open [alice; mallory; bob]).
Proof.
  split; [reflexivity|]. split; [reflexivity|]. vm_compute. discriminate.
Qed.

(** C8.  With two open clients the envelope is serialized twice, inside the
    loop; with no open client it is not serialized at all and no count is
    logged; and when Mallory's send throws after Alice's went through, the
    one successful send is neither logged nor returned. *)
Lemma serialized_once_per_client :
  trace (broadcast (R := runtime) "movement" (JNumber 42) [alice; bob]) =
    [Stringify (JNumber 42); Sent 1 "42"; Stringify (JNumber 42); Sent 2 "42";
     Console (LogBroadcast "movement" 2)]
  /\ List.length (serializations
                    (trace (broadcast (R := runtime) "movement" (JNumber 42) [alice; bob])))
     = 2%nat
  /\ broadcast (R := runtime) "movement" (JNumber 42) [carol] = ([], Normal tt)
  /\ broadcast (R := runtime) "movement" (JNumber 42) [alice; mallory; bob] =
       ([Stringify (JNumber 42); Sent 1 "42";
         Stringify (JNumber 42); SendFailed 4 "42"],
        Throw (SendError "EPIPE")).
Proof.
  repeat split; reflexivity.
Qed.

(** C4.  With the broker down and Alice, Bob and closing Carol registered,
    the body answered on [/health] has the keys [mqtt] and [ws_clients], not
    [mqttConnected] and [wsClients], and its count is 3, the registered
    connections, where two are open. *)
Lemma health_body_differs :
  outcome (on_request (R := runtime) 9 (serving false [alice; bob; carol]) get_health) =
    Normal {| statusCode := 200;
              headers := [("Content-Type", "application/json")];
              body := serialize (health 9 (serving false [alice; bob; carol])) |}
  /\ keys (health 9 (serving false [alice; bob; carol])) =
       ["status"; "mqtt"; "ws_clients"; "timestamp"]
  /\ get "mqttConnected" (health 9 (serving false [alice; bob; carol])) = None
  /\ get "wsClients" (health 9 (serving false [alice; bob; carol])) = None
  /\ get "ws_clients" (health 9 (serving false [alice; bob; carol])) = Some (JNumber 3)
  /\ List.length (filter is_open (wss_clients (serving false [alice; bob; carol]))) = 2%nat
  /\ serialize (health 9 (serving false [alice; bob; carol])) <>
     serialize (health_documented 9 (serving false [alice; bob; carol])).
Proof.
  repeat split; try reflexivity.
  apply String.eqb_neq. vm_compute. reflexivity.
Qed.

(** C9.  After 2^53 - 1 visits from the start of the process the counter is
    at 2^53 - 1; the next two accepts are both given the id 2^53. *)
Lemma client_id_handed_out_twice :
  assigned (snd (run (R := runtime)
                   (N.iter 9007199254740991 (visit (R := runtime)) initial)
                   [(0, WsConnection alice "::1"); (1, WsClose 1);
                    (2, WsConnection bob "::1")])) =
  [9007199254740992; 9007199254740992].
Proof.
  pose proof (two_accepts_assigned (R := runtime)
                (N.iter 9007199254740991 (visit (R := runtime)) initial)
                alice bob "::1" 0 1 2) as H.
  cbn [sock alice peer] in H. rewrite H.
  rewrite (visits_clientCount (R := runtime) 9007199254740991 initial)
    by (vm_compute; discriminate).
  reflexivity.
Qed.

End Instances.

(** * Further properties of the handlers *)

Section Further.
Context {R : Runtime}.

(** Routing performs no effect of its own. *)
Lemma route_by_topic_silent (topic msgString : string) :
  trace (route_by_topic topic msgString) = [].
Proof.
  unfold route_by_topic, parse.
  destruct (String.eqb topic TOPIC_MOVEMENT); [destruct (JSON_parse msgString); reflexivity|].
  destruct (String.eqb topic TOPIC_HEARTBEAT); [destruct (JSON_parse msgString); reflexivity|].
  destruct (String.prefix "iot/status/" topic); reflexivity.
Qed.

(** X1. Whatever the state, the topic and the payload, the broker message
    handler returns normally: neither the SyntaxError of [JSON.parse] nor an
    exception of a client's [send] leaves it. *)
Theorem bridge_handler_never_throws (now : Z) (st : server) (topic : string)
  (message : Buffer) :
  outcome (on_mqtt_message now st topic message) = Normal tt
  /\ forall e, ~ In (Console (ErrUncaught e))
                   (snd (step now st (MqttMessage topic message))).
Proof.
  pose proof (on_mqtt_message_returns now st topic message) as H.
  split; [exact H|]. intros e Hin. cbn [step snd] in Hin.
  destruct (on_mqtt_message now st topic message) as [t r] eqn:Hm.
  unfold outcome in H. simpl in H. subst r. cbn [uncaught] in Hin.
  assert (Hc : In (ErrUncaught e) (console_lines t)).
  { clear - Hin. induction t as [|[] t IH]; simpl in *; try tauto;
      destruct Hin as [Heq|Hin]; try discriminate; auto.
    inversion Heq. auto. }
  assert (Ht : t = trace (on_mqtt_message now st topic message)) by (rewrite Hm; reflexivity).
  clear Hm Hin. subst t. revert Hc.
  unfold on_mqtt_message.
  pose proof (route_by_topic_silent topic (toString message)) as Hs.
  destruct (route_by_topic topic (toString message)) as [u [[ty payload]|err]];
    unfold trace in Hs; simpl in Hs; subst u.
  - simpl. unfold broadcast.
    pose proof (forEach_accounting (wsMessage now ty topic payload) (wss_clients st) 0%nat)
      as [Hl _].
    destruct (forEach_client _ (wss_clients st) 0%nat) as [u [k|err]]; simpl in *.
    + destruct (0 <? k)%nat; simpl; rewrite console_lines_app, Hl; simpl;
        intuition discriminate.
    + rewrite console_lines_app, Hl. simpl. intuition discriminate.
  - simpl. intuition discriminate.
Qed.

(** X2. The console lines of one broker message are of one of three kinds:
    none, and then no send was attempted; or the single broadcast line,
    whose count is the number of sends that went through, is positive, and
    then no send failed; or the three error lines of the [catch] block, for
    that topic and that payload text.  Success and error lines never come
    together. *)
Theorem bridge_console_lines (now : Z) (st : server) (topic : string)
  (message : Buffer) :
  (console_lines (trace (on_mqtt_message now st topic message)) = []
   /\ attempted (trace (on_mqtt_message now st topic message)) = [])
  \/ (exists ty,
        console_lines (trace (on_mqtt_message now st topic message)) =
          [LogBroadcast ty
             (List.length (delivered (trace (on_mqtt_message now st topic message))))]
        /\ In ty message_types
        /\ (0 < List.length (delivered (trace (on_mqtt_message now st topic message))))%nat
        /\ attempted (trace (on_mqtt_message now st topic message)) =
           map fst (delivered (trace (on_mqtt_message now st topic message))))
  \/ (exists e,
        console_lines (trace (on_mqtt_message now st topic message)) =
          [ErrProcessingTopic topic; ErrMessageContent (toString message);
           ErrProcessing e]).
Proof.
  unfold on_mqtt_message.
  pose proof (route_by_topic_silent topic (toString message)) as Hs.
  destruct (route_by_topic topic (toString message)) as [u [[ty payload]|err]] eqn:Hr;
    unfold trace in Hs; simpl in Hs; subst u.
  - assert (Hty : In ty message_types).
    { unfold route_by_topic, parse in Hr. unfold message_types.
      repeat match type of Hr with
             | context [if ?b then _ else _] => destruct b
             | context [match ?o with Some _ => _ | None => _ end] => destruct o
             end; inversion Hr; subst; simpl; auto 6. }
    simpl. unfold broadcast.
    pose proof (forEach_accounting (wsMessage now ty topic payload) (wss_clients st) 0%nat)
      as [Hl Hk].
    destruct (forEach_client _ (wss_clients st) 0%nat) as [u [k|err]]; simpl in *.
    + destruct Hk as [Hk Ha]. destruct (Nat.ltb_spec 0 k); simpl.
      * right; left. exists ty.
        rewrite console_lines_app, delivered_app, attempted_app, Hl. simpl.
        rewrite !app_nil_r, <- Hk. repeat split; auto.
      * left. rewrite console_lines_app, attempted_app, Hl, Ha. simpl.
        destruct (delivered u); [split; reflexivity|simpl in Hk; lia].
    + right; right. exists err. rewrite console_lines_app, Hl. reflexivity.
  - right; right. exists err. reflexivity.
Qed.

(** X3. The clients a broadcast reaches are the open members of
    [wss.clients] that come before the first one whose send throws, and they
    are reached in the order of the set. *)
Theorem deliveries_in_set_order (ty : string) (message : json) (clients : list socket) :
  map fst (delivered (trace (broadcast ty message clients))) =
  map sock (before_first_failure (filter is_open clients)).
Proof.
  assert (H : forall n, map fst (delivered (trace (forEach_client message clients n))) =
                        map sock (before_first_failure (filter is_open clients))).
  { induction clients as [|c rest IH]; intros n; simpl; [reflexivity|].
    destruct (is_open c); [|apply IH].
    unfold stringify, send. simpl.
    destruct (sendError c); simpl; [reflexivity|].
    specialize (IH (S n)). destruct (forEach_client message rest (S n)) as [t r].
    simpl in *. rewrite IH. reflexivity. }
  rewrite <- (H 0%nat). unfold broadcast.
  destruct (forEach_client message clients 0%nat) as [t [k|e]]; simpl; [|reflexivity].
  destruct (0 <? k)%nat; simpl; rewrite delivered_app, app_nil_r; reflexivity.
Qed.

(** X4. Routing throws only on the movement or heartbeat topic, only when
    [JSON.parse] rejects the payload, and what it throws is that
    SyntaxError; on every other topic it returns, whatever the payload.
    When it returns, the message type is one of the four known ones. *)
Theorem routing_outcomes (topic msgString : string) :
  match outcome (route_by_topic topic msgString) with
  | Throw e =>
      (topic = TOPIC_MOVEMENT \/ topic = TOPIC_HEARTBEAT)
      /\ JSON_parse msgString = None
      /\ e = SyntaxError msgString
  | Normal (ty, payload) =>
      In ty message_types
      /\ (JSON_parse msgString = None ->
          topic <> TOPIC_MOVEMENT /\ topic <> TOPIC_HEARTBEAT)
  end.
Proof.
  unfold route_by_topic, parse, message_types.
  destruct (String.eqb_spec topic TOPIC_MOVEMENT) as [Hm|Hm].
  - destruct (JSON_parse msgString) eqn:Hp; simpl; [|auto].
    split; [auto|discriminate].
  - destruct (String.eqb_spec topic TOPIC_HEARTBEAT) as [Hh|Hh].
    + destruct (JSON_parse msgString) eqn:Hp; simpl; [|auto].
      split; [auto|discriminate].
    + destruct (String.prefix "iot/status/" topic); simpl; auto 8.
Qed.

(** X5. A broker message that routes, arriving when no member of
    [wss.clients] is open (the set may be empty), has no effect at all:
    nothing is serialized, nothing is sent and nothing is logged. *)
Theorem no_open_client_no_effect (now : Z) (st : server) (topic : string)
  (message : Buffer) (ty : string) (payload : json) :
  filter is_open (wss_clients st) = [] ->
  outcome (route_by_topic topic (toString message)) = Normal (ty, payload) ->
  on_mqtt_message now st topic message = ([], Normal tt).
Proof.
  intros Hf Hr.
  pose proof (route_by_topic_silent topic (toString message)) as Hs.
  destruct (route_by_topic topic (toString message)) as [u r] eqn:Hroute.
  unfold trace, outcome in *. simpl in *. subst u r.
  rewrite (on_mqtt_message_routed _ _ _ _ _ _ Hroute). unfold broadcast.
  rewrite forEach_healthy.
  - rewrite Hf. reflexivity.
  - intros c Hin Ho.
    assert (Hc : In c (filter is_open (wss_clients st))) by (apply filter_In; auto).
    rewrite Hf in Hc. contradiction.
Qed.

(** X6. A message sent by a client changes nothing and reaches nobody: the
    state is kept, nothing is serialized or sent, and at most one console
    line is written, by the listener of that socket if one is attached: the
    parsed value under the client's id, or the SyntaxError, which is
    swallowed there. *)
Theorem client_message_inert (now : Z) (st : server) (s : N) (message : Buffer) :
  step now st (WsMessage s message) =
  (st,
   match find (listens s) (listeners st) with
   | None => []
   | Some c =>
       [Console match JSON_parse (toString message) with
                | Some v => LogClientMessage (clientId c) v
                | None => ErrClientParse (SyntaxError (toString message))
                end]
   end).
Proof.
  cbn [step]. unfold dispatch, on_client_message, parse.
  destruct (find (listens s) (listeners st)); [|reflexivity].
  destruct (JSON_parse (toString message)); reflexivity.
Qed.

Lemma increment_range (n : Z) :
  0 <= n <= 2 ^ 53 -> n <= increment n <= 2 ^ 53 /\ 1 <= increment n.
Proof.
  intros H. unfold increment. destruct (Z.ltb_spec n (2 ^ 53)); lia.
Qed.

Lemma run_clientCount (inputs : list (Z * input)) :
  forall st : server,
    0 <= clientCount st <= 2 ^ 53 ->
    clientCount (fst (run st inputs)) =
    Z.min (clientCount st + Z.of_nat (accepts inputs)) (2 ^ 53).
Proof.
  induction inputs as [|[now i] rest IH]; intros st H.
  - simpl. lia.
  - rewrite run_cons. cbn [fst].
    pose proof (proj1 (step_clientCount now st i)) as Hc.
    pose proof (increment_range _ H) as Hi.
    rewrite IH by (rewrite Hc; destruct i; lia).
    rewrite Hc. destruct i; cbn [accepts]; try lia.
    rewrite increment_min by lia. lia.
Qed.

(** X7. [clientCount] counts the accepts since the start of the process,
    up to 2^53 where it stays: closes, errors, client messages, broker
    messages and health requests never lower it, so it is not the number of
    clients currently connected. *)
Theorem clientCount_counts_accepts (inputs : list (Z * input)) :
  clientCount (fst (run initial inputs)) =
  Z.min (Z.of_nat (accepts inputs)) (2 ^ 53).
Proof.
  rewrite run_clientCount by (simpl; lia). reflexivity.
Qed.

Lemma health_with_suffix (suffix : string) :
  suffix <> "" -> String.eqb ("/health" ++ suffix)%string "/health" = false.
Proof.
  intros H. apply String.eqb_neq. intros Heq. apply H.
  simpl in Heq. repeat (injection Heq as Heq). exact Heq.
Qed.

(** X8. The health route compares the whole URL: a URL that only starts
    with [/health] (a query string, a trailing slash) is answered 404 with
    ["Not Found"], and nothing is serialized for it. *)
Theorem health_url_exact (now : Z) (st : server) (req : request) (suffix : string) :
  suffix <> "" ->
  url req = ("/health" ++ suffix)%string ->
  on_request now st req =
    ([], Normal {| statusCode := 404; headers := []; body := "Not Found" |}).
Proof.
  intros Hs Hu. unfold on_request. rewrite Hu, (health_with_suffix _ Hs). reflexivity.
Qed.

Lemma clients_add_member (ws : socket) (clients : list socket) :
  existsb (is_socket (sock ws)) (clients_add ws clients) = true.
Proof.
  unfold clients_add.
  destruct (existsb (is_socket (sock ws)) clients) eqn:He; [exact He|].
  rewrite existsb_app. simpl. unfold is_socket at 2. rewrite N.eqb_refl.
  apply orb_true_iff. right. reflexivity.
Qed.

(** X9. When the welcome send of a new connection throws, the exception
    leaves the handler and is logged by the process-level listener; the id
    has been taken all the same and the socket stays in [wss.clients].  No
    listener having been attached, a later message of that socket is not
    logged, and a later error of it, finding no ['error'] listener, is
    thrown by the emitter and logged by the process-level listener too. *)
Theorem failed_welcome (now : Z) (st : server) (ws : socket) (ip reason : string) :
  sendError ws = Some reason ->
  find (listens (sock ws)) (listeners st) = None ->
  clientCount (fst (step now st (WsConnection ws ip))) = increment (clientCount st)
  /\ listeners (fst (step now st (WsConnection ws ip))) = listeners st
  /\ existsb (is_socket (sock ws))
       (wss_clients (fst (step now st (WsConnection ws ip)))) = true
  /\ console_lines (snd (step now st (WsConnection ws ip))) =
       [LogClientConnected (increment (clientCount st)) ip;
        LogTotalClients (List.length (clients_add ws (wss_clients st)));
        ErrUncaught (SendError reason)]
  /\ forall now' message text,
       snd (step now' (fst (step now st (WsConnection ws ip)))
              (WsMessage (sock ws) message)) = []
       /\ snd (step now' (fst (step now st (WsConnection ws ip)))
                 (WsError (sock ws) text)) =
          [Console (ErrUncaught (SocketError text))].
Proof.
  intros He Hf. cbn [step]. unfold on_connection, greet, stringify, send.
  rewrite He. cbn. split; [reflexivity|]. split; [reflexivity|].
  split; [apply clients_add_member|]. split; [reflexivity|].
  intros now' message text. unfold dispatch, dispatch_error. cbn. rewrite Hf.
  split; reflexivity.
Qed.

(** X10. Accepting a connection calls [send] once, on the new socket and
    whatever its [readyState], with the serialization of the welcome
    object; no other client is sent anything. *)
Theorem accept_greets_newcomer_only (now : Z) (st : server) (ws : socket) (ip : string) :
  attempted (snd (step now st (WsConnection ws ip))) = [sock ws]
  /\ serializations (snd (step now st (WsConnection ws ip))) = [welcome now]
  /\ forall s data,
       In (s, data) (delivered (snd (step now st (WsConnection ws ip)))) ->
       s = sock ws /\ data = JSON_stringify (welcome now).
Proof.
  cbn [step]. unfold on_connection, greet, stringify, send.
  destruct (sendError ws); cbn.
  - repeat split; contradiction.
  - repeat split; destruct H as [H|[]]; inversion H; reflexivity.
Qed.

(** X11. Every broker connect issues the three subscriptions, in the order
    movement, heartbeat, status, whether or not earlier ones were granted;
    a subscription is logged exactly when it was granted, and a refused one
    raises nothing. *)
Theorem connect_subscribes (now : Z) (st : server) (granted : string -> bool) :
  subscriptions (snd (step now st (MqttConnect granted))) = subscribed_topics
  /\ console_lines (snd (step now st (MqttConnect granted))) =
       LogMqttConnected :: map LogSubscribed (filter granted subscribed_topics)
  /\ connected (fst (step now st (MqttConnect granted))) = true.
Proof.
  cbn [step]. unfold on_mqtt_connect, subscribed, subscribed_topics. cbn [filter].
  destruct (granted TOPIC_MOVEMENT), (granted TOPIC_HEARTBEAT), (granted TOPIC_STATUS);
    repeat split; reflexivity.
Qed.

Lemma step_ids_in_range (now : Z) (st : server) (i : input) :
  ids_in_range st -> ids_in_range (fst (step now st i)).
Proof.
  intros [Hc Hl].
  destruct i; cbn [step fst]; try (split; assumption).
  - unfold on_connection. cbn [fst]. unfold ids_in_range.
    cbn [clientCount listeners with_clients].
    destruct (increment_range _ Hc) as [Hi H1].
    assert (Hw : Forall (fun c => 1 <= clientId c <= increment (clientCount st))
                   (listeners st)).
    { eapply Forall_impl; [|exact Hl]. cbn. intros c Hcid. lia. }
    split; [lia|].
    match goal with |- Forall _ (match ?o with _ => _ end) => destruct o end;
      [|exact Hw].
    apply Forall_app. split; [exact Hw|]. constructor; [cbn; lia|constructor].
  - split; [exact Hc|]. cbn [listeners with_listeners with_clients clientCount].
    rewrite Forall_forall in *. intros c Hin. apply filter_In in Hin. apply Hl, Hin.
Qed.

(** X12. From the start of the process and over any inputs, the counter
    stays between 0 and 2^53 and every attached listener carries an id
    between 1 and the current value of the counter: the ids written by the
    message, disconnect and error lines are ids that were handed out. *)
Theorem listener_ids_in_range (inputs : list (Z * input)) :
  ids_in_range (fst (run initial inputs)).
Proof.
  assert (H : forall st, ids_in_range st -> ids_in_range (fst (run st inputs))).
  { induction inputs as [|[now i] rest IH]; intros st Hst; [exact Hst|].
    rewrite run_cons. cbn [fst]. apply IH, step_ids_in_range, Hst. }
  apply H. split; [cbn; lia|constructor].
Qed.



(** X14. An error event on a client socket writes exactly one console
    line and changes nothing the script keeps: with the listener of the
    connection attached, the error text under the client's id; with none,
    the error itself as an uncaught exception.  The handler does not close
    the socket and does not take it out of [wss.clients]. *)
Theorem client_error_logged_once (now : Z) (st : server) (s : N) (text : string) :
  step now st (WsError s text) =
    (st,
     [Console match find (listens s) (listeners st) with
              | Some c => ErrClient (clientId c) text
              | None => ErrUncaught (SocketError text)
              end]).
Proof.
  cbn [step]. unfold dispatch_error, on_client_error.
  destruct (find (listens s) (listeners st)); reflexivity.
Qed.

End Further.

Module FurtherInstances.
Import Example.

(** A status message while the only registered client is closing. *)
Lemma no_open_client_no_effect_witness :
  filter is_open (wss_clients (serving true [carol])) = []
  /\ on_mqtt_message (R := runtime) 7 (serving true [carol])
       "iot/status/sensor7" status_bytes = ([], Normal tt).
Proof.
  split; [reflexivity|].
  exact (no_open_client_no_effect (R := runtime) 7 (serving true [carol])
           "iot/status/sensor7" status_bytes
           "device_status" (JObject [("status", JString "OK")]) eq_refl eq_refl).
Defined.

Lemma probe_suffix : "?probe=1" <> "".
Proof. discriminate. Defined.

(** A health probe with a query string. *)
Lemma health_url_exact_witness :
  "?probe=1" <> ""
  /\ on_request (R := runtime) 9 (serving true [alice])
       {| method := "GET"; url := "/health?probe=1" |} =
     ([], Normal {| statusCode := 404; headers := []; body := "Not Found" |}).
Proof.
  split; [exact probe_suffix|].
  exact (health_url_exact (R := runtime) 9 (serving true [alice])
           {| method := "GET"; url := "/health?probe=1" |} "?probe=1"
           probe_suffix eq_refl).
Defined.

(** Mallory connects to a fresh server and her welcome throws. *)
Lemma failed_welcome_witness :
  sendError mallory = Some "EPIPE"
  /\ clientCount (fst (step (R := runtime) 0 initial (WsConnection mallory "::1"))) = 1
  /\ listeners (fst (step (R := runtime) 0 initial (WsConnection mallory "::1"))) = [].
Proof.
  split; [reflexivity|].
  pose proof (failed_welcome (R := runtime) 0 initial mallory "::1" "EPIPE"
                eq_refl eq_refl) as [Hc [Hl _]].
  split; [exact Hc|exact Hl].
Defined.


End FurtherInstances.
